(** * negroni-logrus: request-logging middleware and its context carrier

    A shallow embedding of package [negronilogrus] (middleware.go and the
    context carrier file) together with the small part of its collaborators
    that the package calls: logrus entries, [context.Context], the
    [http.Request] fields the middleware reads and negroni's status-capturing
    response writer.

    Conventions of the embedding.
    - A Go pointer that the code dereferences without a test ([*logrus.Entry],
      [*http.Request], [*logrus.Logger]) is embedded as the value it points
      to.  Where the code tests for nil (the carrier [l == nil], a nil
      [http.ResponseWriter], the hooks [m.Before == nil]) the nil case is a
      constructor of the embedded type.
    - The receiver [m *Middleware] is passed in and handed back, so that
      every write to it is visible in the result.
    - Response writers are mutable objects: they live in a [Heap], and the
      next handler is a state transformer on that heap.
    - Contexts are immutable values, as in Go: [context.WithValue] derives a
      child and leaves its parent alone.  The holder [ToContext] puts into a
      context is never assigned to afterwards, and [WithFields] copies the
      data of the entry it is called on, so holders and entries are values
      too.
    - What the middleware does to its collaborators (reading the clock,
      calling a hook, emitting a log record, calling the next handler) is
      recorded, in program order, in a trace of [event]s.  Emitting a record
      means handing it to the logger at its level; what the logger's own
      level and output make of it is the backend's business. *)

From stdpp Require Import gmap strings list.

Local Open Scope Z_scope.

(** ** time *)

Module time.
(** [time.Time] as nanoseconds on the wall clock, [time.Duration] as its
    int64 count of nanoseconds. *)
Definition Time := Z.
Definition Duration := Z.

(** [func (d Duration) Nanoseconds() int64 { return int64(d) }] *)
Definition Nanoseconds (d : Duration) : Z := d.
End time.

(** ** logrus *)

Module logrus.

Inductive Level :=
| PanicLevel | FatalLevel | ErrorLevel | WarnLevel
| InfoLevel | DebugLevel | TraceLevel.

Inductive Formatter := TextFormatter | JSONFormatter.

(** Where a logger writes: [io.Writer] values the package can meet. *)
Inductive Writer := Stderr | Discard | Sink (n : nat).

Record Logger := {
  Out : Writer;
  Formatter_of : Formatter;
  Level_of : Level
}.

(** [logrus.New()] *)
Definition New : Logger :=
  {| Out := Stderr; Formatter_of := TextFormatter; Level_of := InfoLevel |}.

(** The dynamic values the package stores in [logrus.Fields]
    ([map[string]interface{}]). *)
Inductive value :=
| VString (s : string)
| VInt (n : Z)
| VInt64 (n : Z)
| VDuration (d : time.Duration).

Abbreviation Fields := (gmap string value).

Record Entry := {
  Entry_Logger : Logger;
  Data : Fields
}.

(** [logrus.NewEntry(logger)]: an entry with an empty field map. *)
Definition NewEntry (logger : Logger) : Entry :=
  {| Entry_Logger := logger; Data := ∅ |}.

(** [entry.WithFields(fields)]: a new entry; the old data are copied, then
    every given field is written over them. *)
Definition WithFields (entry : Entry) (fields : Fields) : Entry :=
  {| Entry_Logger := Entry_Logger entry; Data := fields ∪ Data entry |}.

(** [entry.WithField(key, value)] is [WithFields] on a one-field map. *)
Definition WithField (entry : Entry) (key : string) (v : value) : Entry :=
  WithFields entry {[ key := v ]}.

(** A record handed to the backend by [entry.Info(msg)] and its
    siblings. *)
Record Record_ := {
  rec_level : Level;
  rec_entry : Entry;
  rec_msg : string
}.

Definition Info (entry : Entry) (msg : string) : Record_ :=
  {| rec_level := InfoLevel; rec_entry := entry; rec_msg := msg |}.

End logrus.

(** ** negroni and net/http *)

Definition addr := nat.
Bind Scope nat_scope with addr.

Module http.

(** An [http.ResponseWriter] interface value, by what a type assertion can
    tell about it: nil, an object that also implements
    [negroni.ResponseWriter], or any other writer (for instance one
    wrapped by an instrumentation layer). *)
Inductive ResponseWriter :=
| NilWriter
| NegroniWriter (a : addr)
| OpaqueWriter (a : addr).

(** [http.Header], keyed by canonical header names. *)
Abbreviation Header := (gmap string (list string)).

(** [h.Get(key)] for an already canonical [key]: the first value, or the
    empty string. *)
Definition Header_Get (h : Header) (key : string) : string :=
  match h !! key with
  | Some (v :: _) => v
  | _ => ""
  end.

End http.

(** The mutable world a handler chain runs in: the status every response
    writer has recorded so far, and the wall clock. *)
Record Heap := {
  statuses : gmap addr Z;
  wall : time.Time
}.

Module negroni.

(** [rw.Status()]: the recorded status, 0 while no header was written. *)
Definition Status (h : Heap) (res : addr) : Z :=
  default 0 (statuses h !! res).

(** [rw.WriteHeader(code)] *)
Definition WriteHeader (res : addr) (code : Z) (h : Heap) : Heap :=
  {| statuses := <[res := code]> (statuses h); wall := wall h |}.

End negroni.

(** The type assertion [rw.(negroni.ResponseWriter)] in its comma-ok form:
    [Some res] stands for [(res, true)], [None] for [(nil, false)].  On a nil
    interface the comma-ok form yields [false]; it does not panic. *)
Definition as_negroni (rw : http.ResponseWriter) : option addr :=
  match rw with
  | http.NegroniWriter a => Some a
  | http.NilWriter | http.OpaqueWriter _ => None
  end.

(** ** The context carrier *)

(** [ctxLogger]: the holder stored in a context.  Nothing in the package
    assigns to its fields after [ToContext] built it. *)
Record ctxLogger := {
  logger : logrus.Entry;
  fields : logrus.Fields
}.

Module context.

(** Context keys: the package's two private keys, and everybody else's. *)
Inductive Key :=
| ctxLoggerKey
| ctxWriterKey
| ForeignKey (name : string).

#[global] Instance Key_eq_dec : EqDecision Key.
Proof. solve_decision. Defined.

(** The dynamic values found in a context: a [*ctxLogger] (possibly a nil
    pointer), an [http.ResponseWriter], or a value of some other type. *)
Inductive Val :=
| VCtxLogger (l : option ctxLogger)
| VWriter (rw : http.ResponseWriter)
| VForeign (tag : string).

(** [context.Context]: immutable; [WithValue] derives a child. *)
Inductive Context :=
| Background
| WithValue (parent : Context) (key : Key) (val : Val).

(** [ctx.Value(key)]: the innermost binding of [key]; [None] is the nil
    interface. *)
Fixpoint Value (ctx : Context) (key : Key) : option Val :=
  match ctx with
  | Background => None
  | WithValue parent k v =>
      if decide (k = key) then Some v else Value parent key
  end.

End context.

(** The lookup of [ctxLoggerKey] asserted to a pointer to [ctxLogger],
    followed by the test [!ok || l == nil]: [Some l] when the assertion
    succeeds on a non-nil holder. *)
Definition holder_of (ctx : context.Context) : option ctxLogger :=
  match context.Value ctx context.ctxLoggerKey with
  | Some (context.VCtxLogger (Some l)) => Some l
  | _ => None
  end.

(** Modelled from the spec: [nullLogger] is declared in a file of the
    package that is not part of the sources at hand.  The spec calls it a
    discard backend: a logger whose output is thrown away. *)
Definition nullLogger : logrus.Logger :=
  {| logrus.Out := logrus.Discard;
     logrus.Formatter_of := logrus.TextFormatter;
     logrus.Level_of := logrus.PanicLevel |}.

(** [Extract]: the call-scoped entry of [ctx], or a no-op entry. *)
Definition Extract (ctx : context.Context) : logrus.Entry :=
  match holder_of ctx with
  | None => logrus.NewEntry nullLogger
  | Some l =>
      (* fields := logrus.Fields{}; for k, v := range l.fields { fields[k] = v } *)
      let fields_ : logrus.Fields :=
        map_fold (λ k v acc, <[k := v]> acc) ∅ (fields l) in
      logrus.WithFields (logger l) fields_
  end.

(** [ToContext]: a child context holding a new holder for [entry]. *)
Definition ToContext (ctx : context.Context) (entry : logrus.Entry)
  : context.Context :=
  let l := {| logger := entry; fields := ∅ |} in
  context.WithValue ctx context.ctxLoggerKey (context.VCtxLogger (Some l)).

(** [ExtractWriter]: [rw, _ := ctx.Value(ctxWriterKey{}).(http.ResponseWriter)];
    a failed assertion leaves the nil writer. *)
Definition ExtractWriter (ctx : context.Context) : http.ResponseWriter :=
  match context.Value ctx context.ctxWriterKey with
  | Some (context.VWriter rw) => rw
  | _ => http.NilWriter
  end.

(** [AddWriterToContext] *)
Definition AddWriterToContext (ctx : context.Context) (rw : http.ResponseWriter)
  : context.Context :=
  context.WithValue ctx context.ctxWriterKey (context.VWriter rw).

(** ** The middleware *)

(** What the package takes from the Go standard library and does not define
    itself: the error result of [url.Parse] ([None] is a nil error) and the
    table behind [http.StatusText]. *)
Class GoStdlib := {
  url_Parse_err : string → option string;
  http_StatusText : Z → string
}.

(** The fields of [*http.Request] the middleware reads. *)
Record Request := {
  Method : string;
  URL_Path : string;
  RequestURI : string;
  RemoteAddr : string;
  Header : http.Header;
  Context : context.Context
}.

(** [r.WithContext(ctx)]: a copy of the request carrying [ctx]. *)
Definition WithContext (r : Request) (ctx : context.Context) : Request :=
  {| Method := Method r; URL_Path := URL_Path r; RequestURI := RequestURI r;
     RemoteAddr := RemoteAddr r; Header := Header r; Context := ctx |}.

(** [type timer interface { Now() time.Time; Since(time.Time) time.Duration }] *)
Record timer := {
  Now : Heap → time.Time;
  Since : Heap → time.Time → time.Duration
}.

Definition realClock : timer :=
  {| Now := wall; Since := λ h t, wall h - t |}.

Definition BeforeFunc := logrus.Entry → Request → string → logrus.Entry.
Definition AfterFunc :=
  Heap → logrus.Entry → addr → time.Duration → string → logrus.Entry.

Record Middleware := {
  Logger : logrus.Logger;
  Name : string;
  Before : option BeforeFunc;
  After : option AfterFunc;
  logStarting : bool;
  clock : timer;
  excludeURLs : list string
}.

(** [http.HandlerFunc]: runs on the heap, may write a status to any writer
    and let time pass. *)
Definition HandlerFunc := http.ResponseWriter → Request → Heap → Heap.

(** [DefaultBefore] *)
Definition DefaultBefore : BeforeFunc := λ entry req remoteAddr,
  logrus.WithFields entry
    (<["remote" := logrus.VString remoteAddr]>
       (<["method" := logrus.VString (Method req)]>
          {["request" := logrus.VString (RequestURI req)]})).

(** [fmt.Sprintf] on the format of the latency key. *)
Definition latency_key (name : string) : string :=
  "measure#" +:+ name +:+ ".latency".

(** [DefaultAfter]; [res.Status()] reads the writer's state in [h]. *)
Definition DefaultAfter `{GoStdlib} : AfterFunc := λ h entry res latency name,
  logrus.WithFields entry
    (<[latency_key name := logrus.VInt64 (time.Nanoseconds latency)]>
       (<["took" := logrus.VDuration latency]>
          (<["text_status" := logrus.VString (http_StatusText (negroni.Status h res))]>
             {["status" := logrus.VInt (negroni.Status h res)]}))).

(** [NewMiddlewareFromLogger] *)
Definition NewMiddlewareFromLogger `{GoStdlib} (logger_ : logrus.Logger)
    (name : string) : Middleware :=
  {| Logger := logger_; Name := name;
     Before := Some DefaultBefore; After := Some DefaultAfter;
     logStarting := true; clock := realClock; excludeURLs := [] |}.

(** [NewCustomMiddleware] *)
Definition NewCustomMiddleware `{GoStdlib} (level : logrus.Level)
    (formatter : logrus.Formatter) (name : string) : Middleware :=
  let log := logrus.New in
  let log := {| logrus.Out := logrus.Out log; logrus.Formatter_of := formatter;
                logrus.Level_of := level |} in
  NewMiddlewareFromLogger log name.

(** [NewMiddleware] *)
Definition NewMiddleware `{GoStdlib} : Middleware :=
  NewCustomMiddleware logrus.InfoLevel logrus.TextFormatter "web".

(** Assignments to single fields of the receiver. *)
Definition set_Before (m : Middleware) (f : option BeforeFunc) : Middleware :=
  {| Logger := Logger m; Name := Name m; Before := f; After := After m;
     logStarting := logStarting m; clock := clock m;
     excludeURLs := excludeURLs m |}.

Definition set_After (m : Middleware) (f : option AfterFunc) : Middleware :=
  {| Logger := Logger m; Name := Name m; Before := Before m; After := f;
     logStarting := logStarting m; clock := clock m;
     excludeURLs := excludeURLs m |}.

Definition set_excludeURLs (m : Middleware) (l : list string) : Middleware :=
  {| Logger := Logger m; Name := Name m; Before := Before m; After := After m;
     logStarting := logStarting m; clock := clock m; excludeURLs := l |}.

(** [SetLogStarting] *)
Definition SetLogStarting (m : Middleware) (v : bool) : Middleware :=
  {| Logger := Logger m; Name := Name m; Before := Before m; After := After m;
     logStarting := v; clock := clock m; excludeURLs := excludeURLs m |}.

(** [ExcludeURL]: the returned error, and the receiver afterwards. *)
Definition ExcludeURL `{GoStdlib} (m : Middleware) (u : string)
  : option string * Middleware :=
  match url_Parse_err u with
  | Some err => (Some err, m)
  | None => (None, set_excludeURLs m (excludeURLs m ++ [u]))
  end.

(** [ExcludedURLs] *)
Definition ExcludedURLs (m : Middleware) : list string := excludeURLs m.

(** ** Traces and the effect monad of [ServeHTTP] *)

(** The calls the middleware makes to its collaborators. *)
Inductive event :=
| EvNow (t : time.Time)
| EvBefore (entry : logrus.Entry) (r : Request) (remoteAddr : string)
| EvLog (rec : logrus.Record_)
| EvNext (rw : http.ResponseWriter) (r : Request)
| EvSince (start : time.Time) (d : time.Duration)
| EvAfter (entry : logrus.Entry) (res : addr) (latency : time.Duration)
    (name : string).

(** How a call ends: with a result, or in a Go panic. *)
Inductive outcome (A : Type) :=
| Ok (a : A)
| Panic.
Arguments Ok {A} a.
Arguments Panic {A}.

(** A computation reads and writes the heap and appends to the trace. *)
Definition M (A : Type) : Type := Heap → outcome (A * Heap * list event).

#[global] Instance M_ret : MRet M := λ A a h, Ok (a, h, []).

#[global] Instance M_bind : MBind M := λ A B k c h,
  match c h with
  | Panic => Panic
  | Ok (a, h1, t1) =>
      match k a h1 with
      | Panic => Panic
      | Ok (b, h2, t2) => Ok (b, h2, t1 ++ t2)
      end
  end.

Definition panic {A} : M A := λ _, Panic.

Definition emit (ev : event) : M unit := λ h, Ok (tt, h, [ev]).

(** [m.clock.Now()] *)
Definition clock_Now (m : Middleware) : M time.Time := λ h,
  let t := Now (clock m) h in Ok (t, h, [EvNow t]).

(** [m.clock.Since(start)] *)
Definition clock_Since (m : Middleware) (start : time.Time) : M time.Duration :=
  λ h, let d := Since (clock m) h start in Ok (d, h, [EvSince start d]).

(** [next(rw, r)] *)
Definition call_next (next : HandlerFunc) (rw : http.ResponseWriter)
    (r : Request) : M unit :=
  λ h, Ok (tt, next rw r h, [EvNext rw r]).

(** [m.Before(entry, r, remoteAddr)]; calling a nil func panics. *)
Definition call_Before (m : Middleware) (entry : logrus.Entry) (r : Request)
    (remoteAddr : string) : M logrus.Entry :=
  match Before m with
  | None => panic
  | Some f => emit (EvBefore entry r remoteAddr);; mret (f entry r remoteAddr)
  end.

(** [m.After(log, res, latency, m.Name)] *)
Definition call_After (m : Middleware) (log : logrus.Entry) (res : addr)
    (latency : time.Duration) (name : string) : M logrus.Entry :=
  match After m with
  | None => panic
  | Some f => λ h,
      Ok (f h log res latency name, h, [EvAfter log res latency name])
  end.

(** [entry.Info(msg)] *)
Definition log_Info (entry : logrus.Entry) (msg : string) : M unit :=
  emit (EvLog (logrus.Info entry msg)).

(** The loop over [m.excludeURLs]: [true] when a path matched, the next
    handler was called and [ServeHTTP] has to return. *)
Fixpoint exclude_loop (urls : list string) (rw : http.ResponseWriter)
    (r : Request) (next : HandlerFunc) : M bool :=
  match urls with
  | [] => mret false
  | u :: rest =>
      if String.eqb (URL_Path r) u
      then call_next next rw r;; mret true
      else exclude_loop rest rw r next
  end.

(** [ServeHTTP]; the result is the receiver as the call leaves it. *)
Definition ServeHTTP `{GoStdlib} (m : Middleware) (rw : http.ResponseWriter)
    (r : Request) (next : HandlerFunc) : M Middleware :=
  let m := match Before m with
           | None => set_Before m (Some DefaultBefore)
           | Some _ => m
           end in
  let m := match After m with
           | None => set_After m (Some DefaultAfter)
           | Some _ => m
           end in
  returned ← exclude_loop (excludeURLs m) rw r next;
  if returned : bool then mret m else
  start ← clock_Now m;
  (* Try to get the real IP; Header.Get looks X-Real-IP up in canonical form *)
  let remoteAddr := RemoteAddr r in
  let realIP := http.Header_Get (Header r) "X-Real-Ip" in
  let remoteAddr := if String.eqb realIP "" then remoteAddr else realIP in
  let entry := logrus.NewEntry (Logger m) in
  let reqID := http.Header_Get (Header r) "X-Request-Id" in
  let entry := if String.eqb reqID "" then entry
               else logrus.WithField entry "request_id" (logrus.VString reqID) in
  entry ← call_Before m entry r remoteAddr;
  (if logStarting m then log_Info entry "started handling request"
   else mret tt);;
  let newCtx := ToContext (Context r) entry in
  call_next next rw (WithContext r newCtx);;
  latency ← clock_Since m start;
  let res :=
    match as_negroni rw with
    | Some res => Some res
    | None =>
        let rw := ExtractWriter (Context r) in
        as_negroni rw
    end in
  match res with
  | Some res =>
      (* re-extract logger from newCtx *)
      let log := Extract newCtx in
      done_ ← call_After m log res latency (Name m);
      log_Info done_ "completed handling request"
  | None => mret tt
  end;;
  mret m.

(** ** Vocabulary for the statements *)

(** The hooks a dispatch ends up calling. *)
Definition before_of (m : Middleware) : BeforeFunc :=
  default DefaultBefore (Before m).

Definition after_of `{GoStdlib} (m : Middleware) : AfterFunc :=
  default DefaultAfter (After m).

(** The remote address handed to the Before hook. *)
Definition remote_addr (r : Request) : string :=
  let realIP := http.Header_Get (Header r) "X-Real-Ip" in
  if String.eqb realIP "" then RemoteAddr r else realIP.

(** The entry the middleware builds before it calls the Before hook. *)
Definition fresh_entry (m : Middleware) (r : Request) : logrus.Entry :=
  let entry := logrus.NewEntry (Logger m) in
  let reqID := http.Header_Get (Header r) "X-Request-Id" in
  if String.eqb reqID "" then entry
  else logrus.WithField entry "request_id" (logrus.VString reqID).

(** The entry the middleware installs into the request context. *)
Definition installed_entry (m : Middleware) (r : Request) : logrus.Entry :=
  before_of m (fresh_entry m r) r (remote_addr r).

(** The status-capturing writer the middleware ends up with, if any. *)
Definition recovered (rw : http.ResponseWriter) (r : Request) : option addr :=
  match as_negroni rw with
  | Some res => Some res
  | None => as_negroni (ExtractWriter (Context r))
  end.

(** Two receivers that differ at most in their hooks. *)
Definition same_settings (m m' : Middleware) : Prop :=
  Logger m' = Logger m ∧ Name m' = Name m ∧ logStarting m' = logStarting m ∧
  clock m' = clock m ∧ excludeURLs m' = excludeURLs m.

(** Log records of a trace, and how many carry a given message. *)
Definition logs_of (t : list event) : list logrus.Record_ :=
  omap (λ ev, match ev with EvLog rec => Some rec | _ => None end) t.

Definition count_logs (msg : string) (t : list event) : nat :=
  length (filter (λ rec, logrus.rec_msg rec = msg) (logs_of t)).

Definition started_msg : string := "started handling request".
Definition completed_msg : string := "completed handling request".

(** The receiver after the two nil tests at the head of [ServeHTTP]. *)
Definition defaulted `{GoStdlib} (m : Middleware) : Middleware :=
  let m := match Before m with
           | None => set_Before m (Some DefaultBefore)
           | Some _ => m
           end in
  match After m with
  | None => set_After m (Some DefaultAfter)
  | Some _ => m
  end.

(** ** Handlers written against the package, as a downstream user would *)

(** A handler that attaches one more field to the entry it finds through
    [Extract], installs the enriched entry with [ToContext] and hands the
    derived request to [inner]. *)
Definition enriching (key : string) (v : logrus.value) (inner : HandlerFunc)
  : HandlerFunc := λ rw r h,
  let log := logrus.WithField (Extract (Context r)) key v in
  inner rw (WithContext r (ToContext (Context r) log)) h.

(** Writing a header through an interface value: a wrapper forwards the
    write to the writer it wraps, the nil writer is never written to. *)
Definition write_header (rw : http.ResponseWriter) (code : Z) (h : Heap)
  : Heap :=
  match rw with
  | http.NegroniWriter a | http.OpaqueWriter a => negroni.WriteHeader a code h
  | http.NilWriter => h
  end.

(** An innermost handler that answers 200 when the entry it reaches through
    [Extract] carries [key], and 500 otherwise. *)
Definition probing (key : string) : HandlerFunc := λ rw r h,
  write_header rw
    (match logrus.Data (Extract (Context r)) !! key with
     | Some _ => 200
     | None => 500
     end) h.

(** A handler that deposits the writer [orig] in the context it derives
    and hands the derived request to [inner]. *)
Definition depositing (orig : http.ResponseWriter) (inner : HandlerFunc)
  : HandlerFunc := λ rw r h,
  inner rw (WithContext r (AddWriterToContext (Context r) orig)) h.

(** A handler that answers [code] and takes [d] nanoseconds. *)
Definition answering (code : Z) (d : time.Duration) : HandlerFunc := λ rw r h,
  let h := write_header rw code h in
  {| statuses := statuses h; wall := wall h + d |}.

(** ** Concrete data for the examples *)

(** A stand-in for the standard library on the inputs of the examples:
    [url.Parse] rejects a string that starts with a colon (missing protocol
    scheme); the status texts of 200, 404 and 500. *)
Definition sample_stdlib : GoStdlib := {|
  url_Parse_err := λ u,
    if String.prefix ":" u then Some "missing protocol scheme" else None;
  http_StatusText := λ code,
    if decide (code = 200) then "OK"
    else if decide (code = 404) then "Not Found"
    else if decide (code = 500) then "Internal Server Error"
    else ""
|}.

Definition sample_heap : Heap := {| statuses := ∅; wall := 1000 |}.

Definition sample_request (path : string) (ctx : context.Context) : Request :=
  {| Method := "GET"; URL_Path := path; RequestURI := path;
     RemoteAddr := "10.0.0.1:4242";
     Header := {[ "X-Request-Id" := ["abc123"] ]};
     Context := ctx |}.

Definition sample_logger : logrus.Logger :=
  {| logrus.Out := logrus.Sink 0; logrus.Formatter_of := logrus.JSONFormatter;
     logrus.Level_of := logrus.InfoLevel |}.

(** [NewMiddlewareFromLogger(sample_logger, web)] *)
Definition sample_middleware : Middleware :=
  @NewMiddlewareFromLogger sample_stdlib sample_logger "web".

(** The same with [/healthz] excluded. *)
Definition healthz_middleware : Middleware :=
  (@ExcludeURL sample_stdlib sample_middleware "/healthz").2.

(** The same with the Before hook reset to nil by its owner. *)
Definition hookless_middleware : Middleware :=
  set_Before sample_middleware None.

(** ** Callers of the package *)

(** A chain of [context.WithValue] calls on top of [ctx], outermost
    binding first in the list. *)
Definition derive (ctx : context.Context)
    (bs : list (context.Key * context.Val)) : context.Context :=
  foldl (λ c b, context.WithValue c b.1 b.2) ctx bs.

(** A configuration run: [ExcludeURL] on each string in turn, the caller
    going on after an error. *)
Definition ExcludeURL_each `{GoStdlib} (m : Middleware) (us : list string)
  : Middleware :=
  foldl (λ m u, (ExcludeURL m u).2) m us.

(** A holder with fields of its own, as the range loop of [Extract]
    expects it. *)
Definition sample_holder : ctxLogger :=
  {| logger := logrus.WithField (logrus.NewEntry sample_logger)
                 "method" (logrus.VString "GET");
     fields := {[ "method" := logrus.VString "POST";
                  "tenant" := logrus.VString "acme" ]} |}.


(** Membership in an explicit trace, and case analysis on it. *)
Ltac in_trace :=
  cbn; repeat first [apply list_elem_of_here | apply list_elem_of_further].

Ltac trace_cases Hin :=
  cbn in Hin;
  repeat (apply elem_of_cons in Hin as [Hin|Hin];
          [try discriminate Hin; try (injection Hin as -> ? ? ?)|]);
  try (apply elem_of_nil in Hin; destruct Hin).

Ltac trace_inv Hin :=
  cbn in Hin;
  repeat (apply elem_of_cons in Hin as [Hin|Hin]; [simplify_eq|]);
  try (apply elem_of_nil in Hin; destruct Hin).

(** ** The loop over the excluded paths *)

Lemma exclude_loop_hit urls rw r next h :
  URL_Path r ∈ urls →
  exclude_loop urls rw r next h = Ok (true, next rw r h, [EvNext rw r]).
Proof.
  induction urls as [|u rest IH]; intros Hin.
  - by apply elem_of_nil in Hin.
  - cbn [exclude_loop]. destruct (String.eqb_spec (URL_Path r) u) as [_|Hne].
    + reflexivity.
    + apply IH. apply elem_of_cons in Hin as [?|?]; [congruence|done].
Qed.

Lemma exclude_loop_miss urls rw r next h :
  URL_Path r ∉ urls →
  exclude_loop urls rw r next h = Ok (false, h, []).
Proof.
  induction urls as [|u rest IH]; intros Hnin; [done|].
  cbn [exclude_loop]. apply not_elem_of_cons in Hnin as [Hne Hrest].
  destruct (String.eqb_spec (URL_Path r) u); [done|]. by apply IH.
Qed.

(** ** The two runs of [ServeHTTP] *)

Section Dispatch.
Context `{GoStdlib}.

Lemma defaulted_settings m : same_settings m (defaulted m).
Proof. by destruct m as [? ? [?|] [?|] ? ? ?]. Qed.

Lemma defaulted_Before m : Before (defaulted m) = Some (before_of m).
Proof. by destruct m as [? ? [?|] [?|] ? ? ?]. Qed.

Lemma defaulted_After m : After (defaulted m) = Some (after_of m).
Proof. by destruct m as [? ? [?|] [?|] ? ? ?]. Qed.

Lemma defaulted_id m bf af :
  Before m = Some bf → After m = Some af → defaulted m = m.
Proof. unfold defaulted. by intros -> ->. Qed.

(** A request on the excluded list: one call of the next handler. *)
Lemma ServeHTTP_skip m rw r next h :
  URL_Path r ∈ excludeURLs m →
  ServeHTTP m rw r next h = Ok (defaulted m, next rw r h, [EvNext rw r]).
Proof.
  intros Hin. unfold ServeHTTP. fold (defaulted m).
  assert (Hin' : URL_Path r ∈ excludeURLs (defaulted m))
    by (by destruct (defaulted_settings m) as (_ & _ & _ & _ & ->)).
  unfold mbind, M_bind. by rewrite (exclude_loop_hit _ _ _ _ _ Hin').
Qed.

(** Any other request: the full trace, in program order. *)
Lemma ServeHTTP_proceed m rw r next h :
  URL_Path r ∉ excludeURLs m →
  let entry := installed_entry m r in
  let newCtx := ToContext (Context r) entry in
  let h' := next rw (WithContext r newCtx) h in
  let start := Now (clock m) h in
  let latency := Since (clock m) h' start in
  ServeHTTP m rw r next h =
    Ok (defaulted m, h',
        [EvNow start; EvBefore (fresh_entry m r) r (remote_addr r)] ++
        (if logStarting m
         then [EvLog (logrus.Info entry started_msg)] else []) ++
        [EvNext rw (WithContext r newCtx); EvSince start latency] ++
        match recovered rw r with
        | Some res =>
            [EvAfter (Extract newCtx) res latency (Name m);
             EvLog (logrus.Info
                      (after_of m h' (Extract newCtx) res latency (Name m))
                      completed_msg)]
        | None => []
        end).
Proof.
  intros Hnin. unfold ServeHTTP. fold (defaulted m).
  destruct (defaulted_settings m) as (HL & HN & HS & HC & HE).
  assert (Hnin' : URL_Path r ∉ excludeURLs (defaulted m)) by (by rewrite HE).
  unfold mbind, M_bind. rewrite (exclude_loop_miss _ _ _ _ _ Hnin').
  unfold clock_Now, call_Before, call_After, clock_Since, call_next, log_Info,
    emit, mret, M_ret, mbind, M_bind.
  rewrite defaulted_Before, defaulted_After, HL, HN, HS, HC.
  fold (remote_addr r). fold (fresh_entry m r).
  change (before_of m (fresh_entry m r) r (remote_addr r))
    with (installed_entry m r).
  fold (recovered rw r).
  destruct (logStarting m), (recovered rw r); reflexivity.
Qed.

End Dispatch.

(** ** Properties of the context carrier *)

Lemma copy_of_no_fields :
  map_fold (λ (k : string) (v : logrus.value) (acc : logrus.Fields),
              <[k := v]> acc) ∅ (∅ : logrus.Fields) = ∅.
Proof. apply map_fold_empty. Qed.

Lemma holder_of_ToContext ctx entry :
  holder_of (ToContext ctx entry) = Some {| logger := entry; fields := ∅ |}.
Proof. reflexivity. Qed.

Lemma Extract_ToContext ctx entry : Extract (ToContext ctx entry) = entry.
Proof.
  unfold Extract. rewrite holder_of_ToContext. cbn [logger fields].
  rewrite copy_of_no_fields. destruct entry as [lg data].
  unfold logrus.WithFields; cbn. f_equal. apply (left_id_L ∅ (∪)).
Qed.

(** Installing an entry leaves the writer slot of the context alone. *)
Lemma ExtractWriter_ToContext ctx entry :
  ExtractWriter (ToContext ctx entry) = ExtractWriter ctx.
Proof. reflexivity. Qed.

Lemma Extract_AddWriterToContext ctx rw :
  Extract (AddWriterToContext ctx rw) = Extract ctx.
Proof. reflexivity. Qed.

(** C3. On a context in which the carrier key is absent, is bound to a value
    that is not a carrier, or is bound to a nil carrier, [Extract] returns
    the no-op entry: a new entry of [nullLogger], whose output is discarded
    and which carries no field; the entry is usable, attaching fields to it
    yields an entry with exactly those fields on the same discard backend. *)
Theorem Extract_without_carrier (ctx : context.Context) :
  (context.Value ctx context.ctxLoggerKey = None ∨
   (∃ v, context.Value ctx context.ctxLoggerKey = Some v ∧
         ∀ l, v ≠ context.VCtxLogger l) ∨
   context.Value ctx context.ctxLoggerKey = Some (context.VCtxLogger None)) →
  Extract ctx = logrus.NewEntry nullLogger ∧
  logrus.Out (logrus.Entry_Logger (Extract ctx)) = logrus.Discard ∧
  logrus.Data (Extract ctx) = ∅ ∧
  ∀ f : logrus.Fields,
    logrus.Data (logrus.WithFields (Extract ctx) f) = f ∧
    logrus.Out (logrus.Entry_Logger (logrus.WithFields (Extract ctx) f))
      = logrus.Discard.
Proof.
  intros Hctx.
  assert (Hnone : holder_of ctx = None).
  { unfold holder_of.
    destruct Hctx as [-> | [(v & -> & Hv) | ->]]; [done| |done].
    destruct v as [[l|]| |]; [|done..]. by destruct (Hv (Some l)). }
  assert (HE : Extract ctx = logrus.NewEntry nullLogger)
    by (unfold Extract; by rewrite Hnone).
  rewrite HE. repeat split.
  cbn. apply (right_id_L ∅ (∪)).
Qed.

Lemma Extract_without_carrier_witness :
  let absent := context.WithValue context.Background
                  (context.ForeignKey "user") (context.VForeign "alice") in
  let wrong := context.WithValue context.Background
                 context.ctxLoggerKey (context.VForeign "not a carrier") in
  let nil_carrier := context.WithValue absent
                       context.ctxLoggerKey (context.VCtxLogger None) in
  Extract absent = logrus.NewEntry nullLogger ∧
  Extract wrong = logrus.NewEntry nullLogger ∧
  Extract nil_carrier = logrus.NewEntry nullLogger.
Proof.
  intros absent wrong nil_carrier. split; [|split].
  - apply (Extract_without_carrier absent). left. reflexivity.
  - apply (Extract_without_carrier wrong). right; left.
    exists (context.VForeign "not a carrier"). split; [reflexivity|discriminate].
  - apply (Extract_without_carrier nil_carrier). right; right. reflexivity.
Defined.

(** C4. For every context and every entry, [Extract (ToContext ctx handle)]
    carries the field set of [handle]: the two field maps are equal, key by
    key, nothing added and nothing removed, on the same logger. *)
Theorem Extract_ToContext_fields (ctx : context.Context) (handle : logrus.Entry) :
  logrus.Data (Extract (ToContext ctx handle)) = logrus.Data handle ∧
  (∀ k, logrus.Data (Extract (ToContext ctx handle)) !! k
        = logrus.Data handle !! k) ∧
  logrus.Entry_Logger (Extract (ToContext ctx handle))
    = logrus.Entry_Logger handle.
Proof. by rewrite Extract_ToContext. Qed.

(** ** Configuration *)

Section Configuration.
Context `{GoStdlib}.

(** C7. For every string, [ExcludeURL] either returns an error and hands
    the receiver back as it was, or returns no error and a receiver whose
    excluded-path list is the old list with that very string appended at
    the end, every other setting untouched. *)
Theorem ExcludeURL_all_or_nothing (m : Middleware) (u : string) :
  (∃ err, url_Parse_err u = Some err ∧ ExcludeURL m u = (Some err, m)) ∨
  (∃ m', url_Parse_err u = None ∧ ExcludeURL m u = (None, m') ∧
         excludeURLs m' = excludeURLs m ++ [u] ∧
         ExcludedURLs m' = ExcludedURLs m ++ [u] ∧
         Logger m' = Logger m ∧ Name m' = Name m ∧
         Before m' = Before m ∧ After m' = After m ∧
         logStarting m' = logStarting m ∧ clock m' = clock m).
Proof.
  unfold ExcludeURL. destruct (url_Parse_err u) as [err|].
  - left. by exists err.
  - right. eexists. repeat split.
Qed.

(** C6. For every entry, status-capturing writer, latency and name,
    [DefaultAfter] returns the entry with four fields written over its
    data: status, the writer's status code; text_status, the text of that
    code; took, the latency; and the key made of measure#, the name and
    .latency, the latency as a number of nanoseconds.  The four lookups
    follow; every other key and the logger are as in the entry. *)
Theorem DefaultAfter_fields (h : Heap) (entry : logrus.Entry) (res : addr)
    (latency : time.Duration) (name : string) :
  let code := negroni.Status h res in
  let e' := DefaultAfter h entry res latency name in
  logrus.Data e' =
    <[("measure#" +:+ name +:+ ".latency") := logrus.VInt64 latency]>
      (<["took" := logrus.VDuration latency]>
         (<["text_status" := logrus.VString (http_StatusText code)]>
            (<["status" := logrus.VInt code]> (logrus.Data entry)))) ∧
  logrus.Data e' !! "status" = Some (logrus.VInt code) ∧
  logrus.Data e' !! "text_status"
    = Some (logrus.VString (http_StatusText code)) ∧
  logrus.Data e' !! "took" = Some (logrus.VDuration latency) ∧
  logrus.Data e' !! ("measure#" +:+ name +:+ ".latency")
    = Some (logrus.VInt64 latency) ∧
  logrus.Entry_Logger e' = logrus.Entry_Logger entry.
Proof.
  intros code e'.
  assert (HD : logrus.Data e' =
    <[latency_key name := logrus.VInt64 latency]>
      (<["took" := logrus.VDuration latency]>
         (<["text_status" := logrus.VString (http_StatusText code)]>
            (<["status" := logrus.VInt code]> (logrus.Data entry))))).
  { unfold e', DefaultAfter, logrus.WithFields, time.Nanoseconds; cbn.
    fold code. rewrite <- !insert_union_l.
    by rewrite <- insert_union_singleton_l. }
  assert (Hk : ∀ k, k ∈ ["status"; "text_status"; "took"] →
                    latency_key name ≠ k).
  { intros k Hk. unfold latency_key.
    repeat (apply elem_of_cons in Hk as [->|Hk]; [discriminate|]).
    by apply elem_of_nil in Hk. }
  rewrite HD. unfold latency_key in *. repeat split.
  - rewrite lookup_insert_ne by (apply Hk; set_solver).
    rewrite !lookup_insert_ne by discriminate. apply lookup_insert_eq.
  - rewrite lookup_insert_ne by (apply Hk; set_solver).
    rewrite lookup_insert_ne by discriminate. apply lookup_insert_eq.
  - rewrite lookup_insert_ne by (apply Hk; set_solver).
    apply lookup_insert_eq.
  - apply lookup_insert_eq.
Qed.

End Configuration.

(** ** Dispatch *)



Section Dispatch_properties.
Context `{GoStdlib}.

(** C1. When the path of the request is on the excluded list, [ServeHTTP]
    returns after a single action: the call of the next handler with the
    writer and the request it was given, context included.  It reads no
    clock, calls no hook and emits no log record, whatever the hooks and
    the log-starting flag are, and the heap is the one the next handler
    left. *)
Theorem excluded_request_passes_through (m : Middleware)
    (rw : http.ResponseWriter) (r : Request) (next : HandlerFunc) (h : Heap) :
  URL_Path r ∈ excludeURLs m →
  ∃ m' t,
    ServeHTTP m rw r next h = Ok (m', next rw r h, t) ∧
    t = [EvNext rw r] ∧ logs_of t = [] ∧
    (∀ ev, ev ∈ t → ev = EvNext rw r).
Proof.
  intros Hin. exists (defaulted m), [EvNext rw r].
  split; [by apply ServeHTTP_skip|]. repeat split.
  intros ev Hev. by apply list_elem_of_singleton in Hev.
Qed.

(** C2. When the path of the request is not on the excluded list,
    [ServeHTTP] returns, and its trace holds one record with the message
    started handling request if the log-starting flag is set and none if
    it is not; it holds at most one record with the message completed
    handling request. *)
Theorem one_start_at_most_one_completed (m : Middleware)
    (rw : http.ResponseWriter) (r : Request) (next : HandlerFunc) (h : Heap) :
  URL_Path r ∉ excludeURLs m →
  ∃ m' h' t,
    ServeHTTP m rw r next h = Ok (m', h', t) ∧
    count_logs started_msg t = (if logStarting m then 1 else 0)%nat ∧
    (count_logs started_msg t = 1%nat ↔ logStarting m = true) ∧
    (count_logs completed_msg t ≤ 1)%nat.
Proof.
  intros Hnin. eexists _, _, _. split; [by apply ServeHTTP_proceed|].
  destruct (logStarting m), (recovered rw r); repeat split;
    vm_compute; (lia || done).
Qed.

(** C5. When the path is not excluded and neither the writer given to
    [ServeHTTP] nor the writer found by [ExtractWriter] in the context of
    the request is status-capturing, [ServeHTTP] returns normally, the
    After hook is not called, no record with the completed message is
    emitted, and the only record that can be emitted at all is the
    info-level start record. *)
Theorem no_capable_writer_skips_completion (m : Middleware)
    (rw : http.ResponseWriter) (r : Request) (next : HandlerFunc) (h : Heap) :
  URL_Path r ∉ excludeURLs m →
  as_negroni rw = None →
  as_negroni (ExtractWriter (Context r)) = None →
  ∃ m' h' t,
    ServeHTTP m rw r next h = Ok (m', h', t) ∧
    count_logs completed_msg t = 0%nat ∧
    logs_of t = (if logStarting m
                 then [logrus.Info (installed_entry m r) started_msg]
                 else []) ∧
    (∀ e res lat n, EvAfter e res lat n ∉ t).
Proof.
  intros Hnin Hrw Hctx. eexists _, _, _.
  split; [by apply ServeHTTP_proceed|].
  assert (Hrec : recovered rw r = None) by (unfold recovered; by rewrite Hrw).
  rewrite Hrec. destruct (logStarting m); repeat split;
    intros e res lat n Hin; trace_cases Hin.
Qed.

(** C10. When the path is not excluded and the writer given to
    [ServeHTTP] is not status-capturing, the writer the middleware falls
    back to is [ExtractWriter] of the context the request carried on
    entry, whatever the next handler does with the contexts it derives:
    if that writer is status-capturing, the After hook is called on it and
    one completed record is emitted; if not, none is.  In particular, when
    nothing is bound to the writer key of that context, [ExtractWriter]
    yields the nil writer, the assertion on it fails without a panic,
    [ServeHTTP] returns and emits no completed record. *)
Theorem fallback_reads_original_context (m : Middleware)
    (rw : http.ResponseWriter) (r : Request) (next : HandlerFunc) (h : Heap) :
  URL_Path r ∉ excludeURLs m →
  as_negroni rw = None →
  ∃ m' h' t,
    ServeHTTP m rw r next h = Ok (m', h', t) ∧
    let newCtx := ToContext (Context r) (installed_entry m r) in
    match as_negroni (ExtractWriter (Context r)) with
    | Some res =>
        (∃ lat, EvAfter (Extract newCtx) res lat (Name m) ∈ t) ∧
        count_logs completed_msg t = 1%nat
    | None => count_logs completed_msg t = 0%nat
    end ∧
    (context.Value (Context r) context.ctxWriterKey = None →
     ExtractWriter (Context r) = http.NilWriter ∧
     as_negroni (ExtractWriter (Context r)) = None ∧
     count_logs completed_msg t = 0%nat).
Proof.
  intros Hnin Hrw. eexists _, _, _.
  split; [by apply ServeHTTP_proceed|].
  assert (Hrec : recovered rw r = as_negroni (ExtractWriter (Context r)))
    by (unfold recovered; by rewrite Hrw).
  rewrite Hrec. cbv zeta. split.
  - destruct (as_negroni (ExtractWriter (Context r))) as [res|].
    + split; [|by destruct (logStarting m)].
      eexists. destruct (logStarting m); in_trace.
    + by destruct (logStarting m).
  - intros Hval. unfold ExtractWriter. rewrite Hval. cbn.
    repeat split. by destruct (logStarting m).
Qed.

(** C9, as the code has it.  Every call of [ServeHTTP] returns, and the
    receiver it leaves has the logger, name, log-starting flag, clock and
    excluded-path list it had on entry; a hook that was set is kept, and a
    hook that was nil has been replaced by the default hook. *)
Theorem ServeHTTP_writes_only_nil_hooks (m : Middleware)
    (rw : http.ResponseWriter) (r : Request) (next : HandlerFunc) (h : Heap) :
  ∃ m' h' t,
    ServeHTTP m rw r next h = Ok (m', h', t) ∧
    excludeURLs m' = excludeURLs m ∧
    Logger m' = Logger m ∧ Name m' = Name m ∧
    logStarting m' = logStarting m ∧ clock m' = clock m ∧
    Before m' = Some (default DefaultBefore (Before m)) ∧
    After m' = Some (default DefaultAfter (After m)).
Proof.
  destruct (decide (URL_Path r ∈ excludeURLs m)) as [Hin|Hnin].
  - eexists _, _, _. split; [by apply ServeHTTP_skip|].
    destruct (defaulted_settings m) as (? & ? & ? & ? & ?).
    by rewrite defaulted_Before, defaulted_After.
  - eexists _, _, _. split; [by apply ServeHTTP_proceed|].
    destruct (defaulted_settings m) as (? & ? & ? & ? & ?).
    by rewrite defaulted_Before, defaulted_After.
Qed.

(** C8, as the code has it.  When the path is not excluded and a
    status-capturing writer is recovered, the After hook is called once,
    on the entry re-extracted from the context the middleware installed;
    that entry is the one the Before hook returned, with exactly its
    fields, whatever the next handler did; the completed record is the
    After hook's result on that entry. *)
Theorem After_sees_installed_entry (m : Middleware)
    (rw : http.ResponseWriter) (r : Request) (next : HandlerFunc) (h : Heap)
    (res : addr) :
  URL_Path r ∉ excludeURLs m →
  recovered rw r = Some res →
  ∃ m' h' t lat log,
    ServeHTTP m rw r next h = Ok (m', h', t) ∧
    log = Extract (ToContext (Context r) (installed_entry m r)) ∧
    EvAfter log res lat (Name m) ∈ t ∧
    (∀ e res' lat' n, EvAfter e res' lat' n ∈ t → e = log) ∧
    logrus.Data log = logrus.Data (installed_entry m r) ∧
    logrus.Info (after_of m h' log res lat (Name m)) completed_msg
      ∈ logs_of t.
Proof.
  intros Hnin Hrec. eexists _, _, _, _, _.
  split; [by apply ServeHTTP_proceed|]. rewrite Hrec.
  split; [reflexivity|]. rewrite Extract_ToContext.
  destruct (logStarting m); repeat split;
    try in_trace; intros e res' lat' n Hin; trace_cases Hin; done.
Qed.

End Dispatch_properties.

(** ** Runs on concrete requests *)

Lemma excluded_request_passes_through_witness :
  let r := sample_request "/healthz" context.Background in
  let rw := http.NegroniWriter 1 in
  let next := answering 200 50 in
  URL_Path r ∈ excludeURLs healthz_middleware ∧
  ∃ m' t,
    @ServeHTTP sample_stdlib healthz_middleware rw r next sample_heap
      = Ok (m', next rw r sample_heap, t) ∧
    t = [EvNext rw r] ∧ logs_of t = [] ∧
    (∀ ev, ev ∈ t → ev = EvNext rw r).
Proof.
  intros r rw next.
  assert (Hin : URL_Path r ∈ excludeURLs healthz_middleware)
    by apply list_elem_of_here.
  split; [exact Hin|].
  exact (@excluded_request_passes_through sample_stdlib
           healthz_middleware rw r next sample_heap Hin).
Defined.

Lemma other_path_not_excluded :
  URL_Path (sample_request "/orders" context.Background)
    ∉ excludeURLs healthz_middleware.
Proof. intros Hin. trace_cases Hin. Defined.

Lemma one_start_at_most_one_completed_witness :
  let r := sample_request "/orders" context.Background in
  let rw := http.NegroniWriter 1 in
  let next := answering 200 50 in
  (URL_Path r ∉ excludeURLs healthz_middleware) ∧
  ∃ m' h' t,
    @ServeHTTP sample_stdlib healthz_middleware rw r next sample_heap
      = Ok (m', h', t) ∧
    count_logs started_msg t = 1%nat ∧
    (count_logs started_msg t = 1%nat ↔ true = true) ∧
    (count_logs completed_msg t ≤ 1)%nat.
Proof.
  intros r rw next. split; [exact other_path_not_excluded|].
  exact (@one_start_at_most_one_completed sample_stdlib
           healthz_middleware rw r next sample_heap other_path_not_excluded).
Defined.

Lemma no_capable_writer_skips_completion_witness :
  let r := sample_request "/orders" context.Background in
  let rw := http.OpaqueWriter 1 in
  let next := depositing (http.NegroniWriter 1) (answering 200 50) in
  as_negroni rw = None ∧
  as_negroni (ExtractWriter (Context r)) = None ∧
  ∃ m' h' t,
    @ServeHTTP sample_stdlib healthz_middleware rw r next sample_heap
      = Ok (m', h', t) ∧
    count_logs completed_msg t = 0%nat ∧
    logs_of t = [logrus.Info (installed_entry healthz_middleware r)
                   started_msg] ∧
    (∀ e res lat n, EvAfter e res lat n ∉ t).
Proof.
  intros r rw next. split; [reflexivity|]. split; [reflexivity|].
  exact (@no_capable_writer_skips_completion sample_stdlib
           healthz_middleware rw r next sample_heap
           other_path_not_excluded eq_refl eq_refl).
Defined.

Lemma fallback_reads_original_context_witness :
  let ctx := AddWriterToContext context.Background (http.NegroniWriter 1) in
  let r := sample_request "/orders" ctx in
  let rw := http.OpaqueWriter 1 in
  let next := answering 200 50 in
  as_negroni rw = None ∧
  ∃ m' h' t,
    @ServeHTTP sample_stdlib healthz_middleware rw r next sample_heap
      = Ok (m', h', t) ∧
    let newCtx := ToContext ctx (installed_entry healthz_middleware r) in
    ((∃ lat, EvAfter (Extract newCtx) 1 lat "web" ∈ t) ∧
     count_logs completed_msg t = 1%nat) ∧
    (context.Value ctx context.ctxWriterKey = None →
     ExtractWriter ctx = http.NilWriter ∧
     as_negroni (ExtractWriter ctx) = None ∧
     count_logs completed_msg t = 0%nat).
Proof.
  intros ctx r rw next. split; [reflexivity|].
  assert (Hnin : URL_Path r ∉ excludeURLs healthz_middleware)
    by (intros Hin; trace_cases Hin).
  exact (@fallback_reads_original_context sample_stdlib
           healthz_middleware rw r next sample_heap Hnin eq_refl).
Defined.

Lemma After_sees_installed_entry_witness :
  let r := sample_request "/orders" context.Background in
  let rw := http.NegroniWriter 1 in
  let next := enriching "user" (logrus.VString "bob") (probing "user") in
  recovered rw r = Some 1%nat ∧
  ∃ m' h' t lat log,
    @ServeHTTP sample_stdlib healthz_middleware rw r next sample_heap
      = Ok (m', h', t) ∧
    log = Extract (ToContext (Context r)
                     (installed_entry healthz_middleware r)) ∧
    EvAfter log 1 lat "web" ∈ t ∧
    (∀ e res' lat' n, EvAfter e res' lat' n ∈ t → e = log) ∧
    logrus.Data log = logrus.Data (installed_entry healthz_middleware r) ∧
    logrus.Info (@after_of sample_stdlib healthz_middleware h' log 1%nat lat
                   "web") completed_msg ∈ logs_of t.
Proof.
  intros r rw next. split; [reflexivity|].
  exact (@After_sees_installed_entry sample_stdlib
           healthz_middleware rw r next sample_heap 1
           other_path_not_excluded eq_refl).
Defined.

(** C8, as stated, fails.  The next handler attaches the field user to the
    entry it reaches through [Extract] and installs it for the handlers
    below; the innermost handler finds the field through [Extract] and
    answers 200.  The path is not excluded and the direct writer is
    status-capturing, yet the entry handed to the After hook has no field
    user, and no record the middleware emits has one. *)
Lemma downstream_enrichment_lost :
  let m := sample_middleware in
  let r := sample_request "/orders" context.Background in
  let rw := http.NegroniWriter 1 in
  let next := enriching "user" (logrus.VString "bob") (probing "user") in
  (URL_Path r ∉ excludeURLs m) ∧ recovered rw r = Some 1%nat ∧
  ∃ m' h' t,
    @ServeHTTP sample_stdlib m rw r next sample_heap = Ok (m', h', t) ∧
    negroni.Status h' 1 = 200 ∧
    (∃ e lat, EvAfter e 1 lat "web" ∈ t) ∧
    ¬ (∃ e res lat n, EvAfter e res lat n ∈ t ∧
                      logrus.Data e !! "user" = Some (logrus.VString "bob")) ∧
    (∀ rec, rec ∈ logs_of t →
            logrus.Data (logrus.rec_entry rec) !! "user" = None).
Proof.
  intros m r rw next.
  assert (Hnin : URL_Path r ∉ excludeURLs m) by apply not_elem_of_nil.
  split; [exact Hnin|]. split; [reflexivity|].
  eexists _, _, _.
  split; [exact (@ServeHTTP_proceed sample_stdlib m rw r next sample_heap Hnin)|].
  split; [by vm_compute|].
  split; [eexists _, _; in_trace|].
  split.
  - intros (e & res & lat & n & Hin & Huser).
    trace_cases Hin. by vm_compute in Huser.
  - intros rec Hin. trace_cases Hin; subst rec; by vm_compute.
Qed.

(** C9, as stated, fails.  On a middleware whose Before hook was reset to
    nil, a call of [ServeHTTP] returns with the hook field of the receiver
    rewritten: the receiver is no longer the one the call was made on. *)
Lemma ServeHTTP_rewrites_nil_hook :
  let r := sample_request "/orders" context.Background in
  let rw := http.NegroniWriter 1 in
  ∃ m' h' t,
    @ServeHTTP sample_stdlib hookless_middleware rw r (answering 200 50)
      sample_heap = Ok (m', h', t) ∧
    Before hookless_middleware = None ∧
    Before m' = Some DefaultBefore ∧
    m' ≠ hookless_middleware.
Proof.
  intros r rw.
  assert (Hnin : URL_Path r ∉ excludeURLs hookless_middleware)
    by apply not_elem_of_nil.
  eexists _, _, _.
  split; [exact (@ServeHTTP_proceed sample_stdlib hookless_middleware rw r
                   (answering 200 50) sample_heap Hnin)|].
  split; [reflexivity|]. split; [reflexivity|].
  intros Heq. apply (f_equal Before) in Heq. discriminate Heq.
Qed.

(** ** The scenarios of the specification, run on the model *)

(** An excluded path yields no record; any other path yields the start and
    the completed record, the latter with status 200, the request id and,
    for a handler that takes 50 ms, a latency of 50,000,000 on both latency
    fields. *)
Example scenario_healthz :
  ∃ m' h',
    @ServeHTTP sample_stdlib healthz_middleware (http.NegroniWriter 1)
      (sample_request "/healthz" context.Background) (answering 200 50000000)
      sample_heap
    = Ok (m', h', [EvNext (http.NegroniWriter 1)
                     (sample_request "/healthz" context.Background)]).
Proof. eexists _, _. reflexivity. Qed.

Example scenario_completed_record :
  ∃ m' h' t start done_,
    @ServeHTTP sample_stdlib healthz_middleware (http.NegroniWriter 1)
      (sample_request "/orders" context.Background) (answering 200 50000000)
      sample_heap = Ok (m', h', t) ∧
    logs_of t = [logrus.Info start started_msg;
                 logrus.Info done_ completed_msg] ∧
    logrus.Data start !! "request_id" = Some (logrus.VString "abc123") ∧
    logrus.Data start !! "status" = None ∧
    logrus.Data done_ !! "request_id" = Some (logrus.VString "abc123") ∧
    logrus.Data done_ !! "status" = Some (logrus.VInt 200) ∧
    logrus.Data done_ !! "text_status" = Some (logrus.VString "OK") ∧
    logrus.Data done_ !! "took" = Some (logrus.VDuration 50000000) ∧
    logrus.Data done_ !! "measure#web.latency"
      = Some (logrus.VInt64 50000000).
Proof.
  eexists _, _, _, _, _.
  split; [exact (@ServeHTTP_proceed sample_stdlib _ _ _ _ _
                   other_path_not_excluded)|].
  split; [reflexivity|]. by vm_compute.
Qed.

(** A writer deposited by a handler below the middleware is out of its
    reach: the fallback finds nothing and no completed record is emitted,
    although the handler answered 200 on the original writer. *)
Example scenario_deposit_downstream :
  ∃ m' h' t,
    @ServeHTTP sample_stdlib sample_middleware (http.OpaqueWriter 1)
      (sample_request "/orders" context.Background)
      (depositing (http.NegroniWriter 1) (answering 200 50)) sample_heap
    = Ok (m', h', t) ∧
    negroni.Status h' 1 = 200 ∧
    count_logs started_msg t = 1%nat ∧
    count_logs completed_msg t = 0%nat.
Proof.
  eexists _, _, _.
  split; [apply (@ServeHTTP_proceed sample_stdlib); apply not_elem_of_nil|].
  by vm_compute.
Qed.

(** ** Further properties of the context carrier *)

Lemma copy_of_fields (f : logrus.Fields) :
  map_fold (λ (k : string) (v : logrus.value) (acc : logrus.Fields),
              <[k := v]> acc) ∅ f = f.
Proof.
  induction f as [|k v f Hk Hfold IH] using map_first_key_ind.
  - apply map_fold_empty.
  - rewrite map_fold_insert_first_key by done. by rewrite IH.
Qed.

Lemma Value_derive_other (key : context.Key) bs ctx :
  Forall (λ b, b.1 ≠ key) bs →
  context.Value (derive ctx bs) key = context.Value ctx key.
Proof.
  revert ctx. induction bs as [|[k v] bs IH]; intros ctx Hbs; [done|].
  apply Forall_cons in Hbs as [Hk Hbs]. cbn [derive foldl].
  change (foldl _ ?c bs) with (derive c bs). rewrite IH by done.
  cbn. by rewrite decide_False.
Qed.

(** X1. The writer deposited by [AddWriterToContext] is the one
    [ExtractWriter] returns from the derived context and from every context
    derived from that one by bindings under other keys, a carrier installed
    by [ToContext] among them; a nil writer deposited comes back as nil. *)
Theorem ExtractWriter_after_deposit (ctx : context.Context)
    (rw : http.ResponseWriter) (bs : list (context.Key * context.Val))
    (entry : logrus.Entry) :
  Forall (λ b, b.1 ≠ context.ctxWriterKey) bs →
  ExtractWriter (AddWriterToContext ctx rw) = rw ∧
  ExtractWriter (derive (AddWriterToContext ctx rw) bs) = rw ∧
  ExtractWriter (ToContext (derive (AddWriterToContext ctx rw) bs) entry) = rw.
Proof.
  intros Hbs. split; [reflexivity|].
  assert (Hd : ExtractWriter (derive (AddWriterToContext ctx rw) bs) = rw).
  { unfold ExtractWriter. by rewrite Value_derive_other. }
  split; [exact Hd|]. by rewrite ExtractWriter_ToContext.
Qed.

Lemma ExtractWriter_after_deposit_witness :
  let bs := [(context.ForeignKey "user", context.VForeign "alice");
             (context.ctxLoggerKey, context.VCtxLogger None)] in
  ExtractWriter (derive (AddWriterToContext context.Background
                           (http.NegroniWriter 7)) bs)
    = http.NegroniWriter 7.
Proof.
  intros bs.
  assert (Hbs : Forall (λ b, b.1 ≠ context.ctxWriterKey) bs)
    by (repeat constructor; discriminate).
  exact (proj1 (proj2 (ExtractWriter_after_deposit context.Background
                         (http.NegroniWriter 7) bs
                         (logrus.NewEntry sample_logger) Hbs))).
Defined.

(** X2. [ExtractWriter] returns the nil writer, and its assertion to a
    status-capturing writer fails, on every context in which the writer
    key is unbound or bound to a value that is not a response writer;
    bindings under other keys do not change that. *)
Theorem ExtractWriter_without_deposit (ctx : context.Context)
    (bs : list (context.Key * context.Val)) :
  (context.Value ctx context.ctxWriterKey = None ∨
   ∃ v, context.Value ctx context.ctxWriterKey = Some v ∧
        ∀ rw, v ≠ context.VWriter rw) →
  Forall (λ b, b.1 ≠ context.ctxWriterKey) bs →
  ExtractWriter (derive ctx bs) = http.NilWriter ∧
  as_negroni (ExtractWriter (derive ctx bs)) = None.
Proof.
  intros Hctx Hbs.
  assert (HN : ExtractWriter (derive ctx bs) = http.NilWriter).
  { unfold ExtractWriter. rewrite Value_derive_other by done.
    destruct Hctx as [-> | (v & -> & Hv)]; [done|].
    destruct v as [l|rw|tag]; [done| |done]. by destruct (Hv rw). }
  by rewrite HN.
Qed.

Lemma ExtractWriter_without_deposit_witness :
  let ctx := context.WithValue context.Background context.ctxWriterKey
               (context.VForeign "not a writer") in
  let bs := [(context.ctxLoggerKey, context.VCtxLogger (Some sample_holder))] in
  ExtractWriter (derive context.Background bs) = http.NilWriter ∧
  ExtractWriter (derive ctx bs) = http.NilWriter.
Proof.
  intros ctx bs.
  assert (Hbs : Forall (λ b, b.1 ≠ context.ctxWriterKey) bs)
    by (repeat constructor; discriminate).
  split.
  - exact (proj1 (ExtractWriter_without_deposit context.Background bs
                    (or_introl eq_refl) Hbs)).
  - refine (proj1 (ExtractWriter_without_deposit ctx bs (or_intror _) Hbs)).
    exists (context.VForeign "not a writer"). split; [reflexivity|discriminate].
Defined.

(** X3. On a context whose innermost binding of the carrier key is a
    non-nil holder, [Extract] returns an entry on the logger of the held
    entry whose data are the held entry's data with the holder's fields
    written over them: a key of the holder's fields has the holder's value,
    any other key the held entry's. *)
Theorem Extract_with_carrier (ctx : context.Context) (l : ctxLogger) :
  context.Value ctx context.ctxLoggerKey
    = Some (context.VCtxLogger (Some l)) →
  logrus.Entry_Logger (Extract ctx) = logrus.Entry_Logger (logger l) ∧
  logrus.Data (Extract ctx) = fields l ∪ logrus.Data (logger l) ∧
  ∀ k, logrus.Data (Extract ctx) !! k =
       match fields l !! k with
       | Some v => Some v
       | None => logrus.Data (logger l) !! k
       end.
Proof.
  intros Hval.
  assert (HE : Extract ctx = logrus.WithFields (logger l) (fields l)).
  { unfold Extract, holder_of. rewrite Hval. by rewrite copy_of_fields. }
  rewrite HE. cbn. repeat split. intros k.
  rewrite lookup_union. by destruct (fields l !! k), (logrus.Data (logger l) !! k).
Qed.

Lemma Extract_with_carrier_witness :
  let ctx := context.WithValue
               (ToContext context.Background (logrus.NewEntry sample_logger))
               context.ctxLoggerKey (context.VCtxLogger (Some sample_holder)) in
  logrus.Data (Extract ctx) !! "method" = Some (logrus.VString "POST") ∧
  logrus.Data (Extract ctx) !! "tenant" = Some (logrus.VString "acme") ∧
  logrus.Data (Extract ctx) !! "status" = None.
Proof.
  intros ctx.
  pose proof (Extract_with_carrier ctx sample_holder eq_refl)
    as (_ & _ & Hk).
  split; [|split].
  - exact (Hk "method").
  - exact (Hk "tenant").
  - exact (Hk "status").
Defined.

(** X4. Bindings under keys other than the carrier key, a deposited writer
    among them, do not change what [Extract] returns, however many are put
    on top of a context. *)
Theorem Extract_ignores_other_keys (ctx : context.Context)
    (bs : list (context.Key * context.Val)) (rw : http.ResponseWriter) :
  Forall (λ b, b.1 ≠ context.ctxLoggerKey) bs →
  Extract (derive ctx bs) = Extract ctx ∧
  Extract (AddWriterToContext (derive ctx bs) rw) = Extract ctx.
Proof.
  intros Hbs.
  assert (Hd : Extract (derive ctx bs) = Extract ctx).
  { unfold Extract, holder_of. by rewrite Value_derive_other. }
  split; [exact Hd|]. by rewrite Extract_AddWriterToContext.
Qed.

Lemma Extract_ignores_other_keys_witness :
  let ctx := ToContext context.Background
               (logrus.WithField (logrus.NewEntry sample_logger)
                  "tenant" (logrus.VString "acme")) in
  let bs := [(context.ForeignKey "user", context.VForeign "alice");
             (context.ctxWriterKey, context.VWriter (http.OpaqueWriter 3))] in
  Extract (derive ctx bs) = Extract ctx.
Proof.
  intros ctx bs.
  assert (Hbs : Forall (λ b, b.1 ≠ context.ctxLoggerKey) bs)
    by (repeat constructor; discriminate).
  exact (proj1 (Extract_ignores_other_keys ctx bs http.NilWriter Hbs)).
Defined.

(** X5. A handler that attaches a field to the entry it extracts and
    installs the result hands on a context whose entry has the data of the
    extracted entry with that one field written over them, on the same
    logger; the context it started from still yields the entry it yielded
    before.  Without a carrier the result is the single field on the no-op
    logger. *)
Theorem enrich_and_reinstall (ctx : context.Context) (key : string)
    (v : logrus.value) :
  let ctx' := ToContext ctx (logrus.WithField (Extract ctx) key v) in
  logrus.Data (Extract ctx') = <[key := v]> (logrus.Data (Extract ctx)) ∧
  logrus.Data (Extract ctx') !! key = Some v ∧
  logrus.Entry_Logger (Extract ctx') = logrus.Entry_Logger (Extract ctx) ∧
  (holder_of ctx = None →
   logrus.Data (Extract ctx') = {[ key := v ]} ∧
   logrus.Entry_Logger (Extract ctx') = nullLogger).
Proof.
  intros ctx'. unfold ctx'. rewrite Extract_ToContext.
  assert (HD : logrus.Data (logrus.WithField (Extract ctx) key v)
               = <[key := v]> (logrus.Data (Extract ctx)))
    by (cbn; by rewrite <- insert_union_singleton_l).
  rewrite HD. split; [done|]. split; [apply lookup_insert_eq|].
  split; [done|]. intros Hnone. unfold Extract. rewrite Hnone. cbn.
  split; [|done]. by rewrite insert_empty.
Qed.

Lemma enrich_and_reinstall_witness :
  let ctx' := ToContext context.Background
                (logrus.WithField (Extract context.Background)
                   "user" (logrus.VString "bob")) in
  logrus.Data (Extract ctx') = {[ "user" := logrus.VString "bob" ]} ∧
  logrus.Entry_Logger (Extract ctx') = nullLogger.
Proof.
  exact (proj2 (proj2 (proj2
           (enrich_and_reinstall context.Background "user"
              (logrus.VString "bob")))) eq_refl).
Defined.

(** ** Further properties of the hooks *)

Lemma latency_key_fresh name k :
  k ∈ ["status"; "text_status"; "took"; "request"; "method"; "remote";
       "request_id"] →
  latency_key name ≠ k.
Proof.
  intros Hk. unfold latency_key.
  repeat (apply elem_of_cons in Hk as [->|Hk]; [discriminate|]).
  by apply elem_of_nil in Hk.
Qed.

Lemma DefaultBefore_Data entry req remoteAddr :
  logrus.Data (DefaultBefore entry req remoteAddr) =
    <["remote" := logrus.VString remoteAddr]>
      (<["method" := logrus.VString (Method req)]>
         (<["request" := logrus.VString (RequestURI req)]>
            (logrus.Data entry))).
Proof.
  unfold DefaultBefore, logrus.WithFields; cbn.
  rewrite <- !insert_union_l. by rewrite <- insert_union_singleton_l.
Qed.

Lemma DefaultAfter_Data `{GoStdlib} h entry res latency name :
  logrus.Data (DefaultAfter h entry res latency name) =
    <[latency_key name := logrus.VInt64 latency]>
      (<["took" := logrus.VDuration latency]>
         (<["text_status" :=
              logrus.VString (http_StatusText (negroni.Status h res))]>
            (<["status" := logrus.VInt (negroni.Status h res)]>
               (logrus.Data entry)))).
Proof.
  unfold DefaultAfter, logrus.WithFields, time.Nanoseconds; cbn.
  rewrite <- !insert_union_l. by rewrite <- insert_union_singleton_l.
Qed.

(** X6. [DefaultBefore] returns the entry with three fields written over
    its data: request, the request URI; method, the method; remote, the
    address it was given.  Every other key, a request id among them, and
    the logger are as in the entry. *)
Theorem DefaultBefore_fields (entry : logrus.Entry) (req : Request)
    (remoteAddr : string) :
  let e' := DefaultBefore entry req remoteAddr in
  logrus.Data e' !! "request" = Some (logrus.VString (RequestURI req)) ∧
  logrus.Data e' !! "method" = Some (logrus.VString (Method req)) ∧
  logrus.Data e' !! "remote" = Some (logrus.VString remoteAddr) ∧
  logrus.Data e' !! "request_id" = logrus.Data entry !! "request_id" ∧
  (∀ k, logrus.Data e' !! k =
        if decide (k = "remote") then Some (logrus.VString remoteAddr)
        else if decide (k = "method") then Some (logrus.VString (Method req))
        else if decide (k = "request")
             then Some (logrus.VString (RequestURI req))
        else logrus.Data entry !! k) ∧
  logrus.Entry_Logger e' = logrus.Entry_Logger entry.
Proof.
  intros e'. unfold e'. rewrite DefaultBefore_Data.
  assert (Hall : ∀ k,
    (<["remote" := logrus.VString remoteAddr]>
       (<["method" := logrus.VString (Method req)]>
          (<["request" := logrus.VString (RequestURI req)]>
             (logrus.Data entry)))) !! k =
    if decide (k = "remote") then Some (logrus.VString remoteAddr)
    else if decide (k = "method") then Some (logrus.VString (Method req))
    else if decide (k = "request") then Some (logrus.VString (RequestURI req))
    else logrus.Data entry !! k).
  { intros k. repeat case_decide; subst; by simplify_map_eq. }
  repeat split; solve [by rewrite Hall | apply Hall].
Qed.

(** ** Further properties of dispatch *)



(** X8. With the default Before hook (set, or nil at dispatch) and the
    log-starting flag set, the first record of a request that is not
    excluded is the start record, at info level, and its fields are
    request, method and remote, plus request_id exactly when the
    X-Request-Id header is not empty. *)
Theorem start_record_fields `{GoStdlib} (m : Middleware) (rw : http.ResponseWriter)
    (r : Request) (next : HandlerFunc) (h : Heap) :
  URL_Path r ∉ excludeURLs m →
  logStarting m = true →
  before_of m = DefaultBefore →
  let realIP := http.Header_Get (Header r) "X-Real-Ip" in
  let reqID := http.Header_Get (Header r) "X-Request-Id" in
  ∃ m' h' t start,
    ServeHTTP m rw r next h = Ok (m', h', t) ∧
    head (logs_of t) = Some (logrus.Info start started_msg) ∧
    logrus.Data start =
      <["remote" := logrus.VString
                      (if decide (realIP = "") then RemoteAddr r else realIP)]>
        (<["method" := logrus.VString (Method r)]>
           (<["request" := logrus.VString (RequestURI r)]>
              (if decide (reqID = "") then ∅
               else {[ "request_id" := logrus.VString reqID ]}))) ∧
    logrus.Data start !! "request_id" =
      (if decide (reqID = "") then None else Some (logrus.VString reqID)) ∧
    logrus.Entry_Logger start = Logger m.
Proof.
  intros Hnin Hlog Hbefore realIP reqID. eexists _, _, _, _.
  split; [by apply ServeHTTP_proceed|]. rewrite Hlog.
  split; [reflexivity|].
  assert (HD : logrus.Data (installed_entry m r) =
    <["remote" := logrus.VString
                    (if decide (realIP = "") then RemoteAddr r else realIP)]>
      (<["method" := logrus.VString (Method r)]>
         (<["request" := logrus.VString (RequestURI r)]>
            (if decide (reqID = "") then ∅
             else {[ "request_id" := logrus.VString reqID ]})))).
  { unfold installed_entry. rewrite Hbefore, DefaultBefore_Data.
    unfold remote_addr, fresh_entry. fold realIP reqID.
    destruct (String.eqb_spec realIP ""), (String.eqb_spec reqID "");
      by repeat case_decide. }
  rewrite HD. repeat split.
  - rewrite !lookup_insert_ne by discriminate.
    destruct (decide (reqID = ""));
      [apply lookup_empty | apply lookup_singleton_eq].
  - unfold installed_entry. rewrite Hbefore. cbn.
    unfold fresh_entry. by destruct (String.eqb _ "").
Qed.

Lemma start_record_fields_witness :
  let r := sample_request "/orders" context.Background in
  ∃ m' h' t start,
    @ServeHTTP sample_stdlib healthz_middleware (http.NegroniWriter 1) r
      (answering 200 50) sample_heap = Ok (m', h', t) ∧
    head (logs_of t) = Some (logrus.Info start started_msg) ∧
    logrus.Data start =
      <["remote" := logrus.VString "10.0.0.1:4242"]>
        (<["method" := logrus.VString "GET"]>
           (<["request" := logrus.VString "/orders"]>
              {[ "request_id" := logrus.VString "abc123" ]})) ∧
    logrus.Data start !! "request_id" = Some (logrus.VString "abc123") ∧
    logrus.Entry_Logger start = sample_logger.
Proof.
  intros r.
  exact (@start_record_fields sample_stdlib healthz_middleware
           (http.NegroniWriter 1) r (answering 200 50) sample_heap
           other_path_not_excluded eq_refl eq_refl).
Defined.

(** X9. With the default After hook (set, or nil at dispatch), when a
    status-capturing writer is recovered on a request that is not
    excluded, the last record is the completed record; its status and
    text_status are those of the status the writer holds once the next
    handler has returned, and its took and latency fields are the duration
    the clock reports, at that moment, since the instant read before the
    Before hook ran; the latency key is built from the middleware's
    name. *)
Theorem completed_record_fields `{GoStdlib} (m : Middleware) (rw : http.ResponseWriter)
    (r : Request) (next : HandlerFunc) (h : Heap) (res : addr) :
  URL_Path r ∉ excludeURLs m →
  recovered rw r = Some res →
  after_of m = DefaultAfter →
  ∃ m' h' t done_ r',
    ServeHTTP m rw r next h = Ok (m', h', t) ∧
    h' = next rw r' h ∧
    last (logs_of t) = Some (logrus.Info done_ completed_msg) ∧
    let code := negroni.Status h' res in
    let latency := Since (clock m) h' (Now (clock m) h) in
    logrus.Data done_ !! "status" = Some (logrus.VInt code) ∧
    logrus.Data done_ !! "text_status"
      = Some (logrus.VString (http_StatusText code)) ∧
    logrus.Data done_ !! "took" = Some (logrus.VDuration latency) ∧
    logrus.Data done_ !! ("measure#" +:+ Name m +:+ ".latency")
      = Some (logrus.VInt64 latency).
Proof.
  intros Hnin Hrec Hafter. eexists _, _, _, _, _.
  split; [by apply ServeHTTP_proceed|]. split; [reflexivity|].
  rewrite Hrec, Hafter.
  split; [by destruct (logStarting m)|]. cbv zeta.
  rewrite DefaultAfter_Data.
  pose proof (latency_key_fresh (Name m)) as Hk. unfold latency_key in *.
  repeat split.
  - rewrite lookup_insert_ne by (apply Hk; set_solver).
    rewrite !lookup_insert_ne by discriminate. apply lookup_insert_eq.
  - rewrite lookup_insert_ne by (apply Hk; set_solver).
    rewrite lookup_insert_ne by discriminate. apply lookup_insert_eq.
  - rewrite lookup_insert_ne by (apply Hk; set_solver).
    apply lookup_insert_eq.
  - apply lookup_insert_eq.
Qed.

Lemma completed_record_fields_witness :
  let r := sample_request "/orders" context.Background in
  let rw := http.NegroniWriter 1 in
  ∃ m' h' t done_ r',
    @ServeHTTP sample_stdlib healthz_middleware rw r (answering 404 50000000)
      sample_heap = Ok (m', h', t) ∧
    h' = answering 404 50000000 rw r' sample_heap ∧
    last (logs_of t) = Some (logrus.Info done_ completed_msg) ∧
    logrus.Data done_ !! "status" = Some (logrus.VInt 404) ∧
    logrus.Data done_ !! "text_status" = Some (logrus.VString "Not Found") ∧
    logrus.Data done_ !! "took" = Some (logrus.VDuration 50000000) ∧
    logrus.Data done_ !! "measure#web.latency"
      = Some (logrus.VInt64 50000000).
Proof.
  intros r rw.
  destruct (@completed_record_fields sample_stdlib healthz_middleware rw r
              (answering 404 50000000) sample_heap 1
              other_path_not_excluded eq_refl eq_refl)
    as (m' & h' & t & done_ & r' & Hrun & Hh & Hlast & Hs & Ht & Htk & Hl).
  exists m', h', t, done_, r'. subst h'.
  repeat split; assumption.
Defined.

(** X10. With the default After hook, the completed record keeps every
    field of the entry the middleware installed: a key other than status,
    text_status, took and the latency key has in the completed record the
    value it has in the installed entry, and the record is on the same
    logger. *)
Theorem completed_record_keeps_fields `{GoStdlib} (m : Middleware)
    (rw : http.ResponseWriter) (r : Request) (next : HandlerFunc) (h : Heap)
    (res : addr) (k : string) :
  URL_Path r ∉ excludeURLs m →
  recovered rw r = Some res →
  after_of m = DefaultAfter →
  k ∉ ["status"; "text_status"; "took";
       "measure#" +:+ Name m +:+ ".latency"] →
  ∃ m' h' t done_,
    ServeHTTP m rw r next h = Ok (m', h', t) ∧
    last (logs_of t) = Some (logrus.Info done_ completed_msg) ∧
    logrus.Data done_ !! k = logrus.Data (installed_entry m r) !! k ∧
    logrus.Entry_Logger done_ = logrus.Entry_Logger (installed_entry m r).
Proof.
  intros Hnin Hrec Hafter Hk. eexists _, _, _, _.
  split; [by apply ServeHTTP_proceed|]. rewrite Hrec, Hafter.
  split; [by destruct (logStarting m)|].
  rewrite DefaultAfter_Data, Extract_ToContext. unfold latency_key.
  apply not_elem_of_cons in Hk as [H1 Hk].
  apply not_elem_of_cons in Hk as [H2 Hk].
  apply not_elem_of_cons in Hk as [H3 Hk].
  apply not_elem_of_cons in Hk as [H4 _].
  split; [|done]. by rewrite !lookup_insert_ne.
Qed.

Lemma completed_record_keeps_fields_witness :
  let r := sample_request "/orders" context.Background in
  let rw := http.NegroniWriter 1 in
  ∃ m' h' t done_,
    @ServeHTTP sample_stdlib healthz_middleware rw r (answering 200 50)
      sample_heap = Ok (m', h', t) ∧
    last (logs_of t) = Some (logrus.Info done_ completed_msg) ∧
    logrus.Data done_ !! "request_id"
      = logrus.Data (installed_entry healthz_middleware r) !! "request_id" ∧
    logrus.Entry_Logger done_
      = logrus.Entry_Logger (installed_entry healthz_middleware r).
Proof.
  intros r rw.
  assert (Hk : "request_id" ∉ ["status"; "text_status"; "took";
                               "measure#" +:+ "web" +:+ ".latency"])
    by (intros Hin; trace_cases Hin).
  exact (@completed_record_keeps_fields sample_stdlib healthz_middleware rw r
           (answering 200 50) sample_heap 1 "request_id"
           other_path_not_excluded eq_refl eq_refl Hk).
Defined.

Lemma installed_entry_Logger m r :
  before_of m = DefaultBefore →
  logrus.Entry_Logger (installed_entry m r) = Logger m.
Proof.
  intros Hb. unfold installed_entry. rewrite Hb. cbn.
  unfold fresh_entry. by destruct (String.eqb _ "").
Qed.

(** X11. On a request that is not excluded the next handler is called
    once, with the writer the middleware was given and a request that
    differs from the incoming one in its context only.  From that context
    [Extract] yields the entry the middleware installed, which is the
    entry of the start record; the writer slot is the one of the incoming
    context.  The heap the call leaves is the one the next handler left. *)
Theorem next_sees_installed_entry `{GoStdlib} (m : Middleware)
    (rw : http.ResponseWriter) (r : Request) (next : HandlerFunc) (h : Heap) :
  URL_Path r ∉ excludeURLs m →
  ∃ m' t r',
    ServeHTTP m rw r next h = Ok (m', next rw r' h, t) ∧
    EvNext rw r' ∈ t ∧
    (∀ rw0 r0, EvNext rw0 r0 ∈ t → rw0 = rw ∧ r0 = r') ∧
    r' = WithContext r (Context r') ∧
    Extract (Context r') = installed_entry m r ∧
    (∀ rec, rec ∈ logs_of t → logrus.rec_msg rec = started_msg →
            logrus.rec_entry rec = Extract (Context r')) ∧
    ExtractWriter (Context r') = ExtractWriter (Context r).
Proof.
  intros Hnin. eexists _, _, _.
  split; [by apply ServeHTTP_proceed|].
  split; [destruct (logStarting m); in_trace|].
  split.
  { intros rw0 r0 Hin.
    destruct (logStarting m), (recovered rw r); by trace_inv Hin. }
  split; [reflexivity|]. cbn [Context WithContext].
  rewrite Extract_ToContext. split; [reflexivity|].
  split; [|reflexivity].
  intros rec Hin Hmsg.
  destruct (logStarting m), (recovered rw r); trace_inv Hin;
    solve [reflexivity | discriminate Hmsg].
Qed.

Lemma next_sees_installed_entry_witness :
  let r := sample_request "/orders"
             (AddWriterToContext context.Background (http.NegroniWriter 1)) in
  let rw := http.OpaqueWriter 1 in
  ∃ m' t r',
    @ServeHTTP sample_stdlib healthz_middleware rw r (probing "request_id")
      sample_heap
      = Ok (m', probing "request_id" rw r' sample_heap, t) ∧
    EvNext rw r' ∈ t ∧
    (∀ rw0 r0, EvNext rw0 r0 ∈ t → rw0 = rw ∧ r0 = r') ∧
    r' = WithContext r (Context r') ∧
    Extract (Context r') = installed_entry healthz_middleware r ∧
    (∀ rec, rec ∈ logs_of t → logrus.rec_msg rec = started_msg →
            logrus.rec_entry rec = Extract (Context r')) ∧
    ExtractWriter (Context r') = http.NegroniWriter 1.
Proof.
  intros r rw.
  assert (Hnin : URL_Path r ∉ excludeURLs healthz_middleware)
    by (intros Hin; trace_cases Hin).
  exact (@next_sees_installed_entry sample_stdlib healthz_middleware rw r
           (probing "request_id") sample_heap Hnin).
Defined.

(** X12. Every call of [ServeHTTP] calls the next handler exactly once and
    leaves the heap as that call left it: the middleware itself writes to
    no response writer.  Records emitted before the call carry the start
    message, records emitted after it the completed message, and every
    record is at info level. *)
Theorem next_called_once_between_records `{GoStdlib} (m : Middleware)
    (rw : http.ResponseWriter) (r : Request) (next : HandlerFunc) (h : Heap) :
  ∃ m' h' t r' pre post,
    ServeHTTP m rw r next h = Ok (m', h', t) ∧
    t = pre ++ EvNext rw r' :: post ∧
    h' = next rw r' h ∧
    (∀ rw0 r0, EvNext rw0 r0 ∉ pre ++ post) ∧
    (∀ rec, rec ∈ logs_of pre → logrus.rec_msg rec = started_msg) ∧
    (∀ rec, rec ∈ logs_of post → logrus.rec_msg rec = completed_msg) ∧
    (∀ rec, rec ∈ logs_of t → logrus.rec_level rec = logrus.InfoLevel).
Proof.
  destruct (decide (URL_Path r ∈ excludeURLs m)) as [Hin|Hnin].
  - exists (defaulted m), (next rw r h), [EvNext rw r], r, [], [].
    split; [by apply ServeHTTP_skip|]. clear Hin. repeat split.
    all: intros; try intros ?;
      match goal with Hx : _ ∈ _ |- _ => trace_inv Hx end.
  - pose proof (ServeHTTP_proceed m rw r next h Hnin) as Hrun.
    cbv zeta in Hrun.
    set (entry := installed_entry m r) in *.
    set (r' := WithContext r (ToContext (Context r) entry)) in *.
    set (h' := next rw r' h) in *.
    exists (defaulted m), h'.
    eexists _, r',
      ([EvNow (Now (clock m) h);
        EvBefore (fresh_entry m r) r (remote_addr r)] ++
       (if logStarting m
        then [EvLog (logrus.Info entry started_msg)] else [])),
      (EvSince (Now (clock m) h) (Since (clock m) h' (Now (clock m) h)) ::
       match recovered rw r with
       | Some res =>
           [EvAfter (Extract (ToContext (Context r) entry)) res
              (Since (clock m) h' (Now (clock m) h)) (Name m);
            EvLog (logrus.Info
                     (after_of m h' (Extract (ToContext (Context r) entry))
                        res (Since (clock m) h' (Now (clock m) h)) (Name m))
                     completed_msg)]
       | None => []
       end).
    split; [exact Hrun|].
    split; [by destruct (logStarting m)|]. split; [reflexivity|].
    clear Hrun Hnin.
    destruct (logStarting m), (recovered rw r); repeat split;
      intros; try intros ?;
      match goal with Hx : _ ∈ _ |- _ => by trace_inv Hx end.
Qed.

(** X13. When both hooks are set, a call of [ServeHTTP] hands the receiver
    back exactly as it was. *)
Theorem ServeHTTP_keeps_receiver `{GoStdlib} (m : Middleware)
    (rw : http.ResponseWriter) (r : Request) (next : HandlerFunc) (h : Heap)
    (bf : BeforeFunc) (af : AfterFunc) :
  Before m = Some bf → After m = Some af →
  ∃ h' t, ServeHTTP m rw r next h = Ok (m, h', t).
Proof.
  intros Hb Ha. pose proof (defaulted_id m bf af Hb Ha) as Hid.
  destruct (decide (URL_Path r ∈ excludeURLs m)) as [Hin|Hnin].
  - eexists _, _. rewrite <- Hid at 2. by apply ServeHTTP_skip.
  - eexists _, _. rewrite <- Hid at 2. by apply ServeHTTP_proceed.
Qed.

Lemma ServeHTTP_keeps_receiver_witness :
  ∃ h' t,
    @ServeHTTP sample_stdlib healthz_middleware (http.NegroniWriter 1)
      (sample_request "/orders" context.Background) (answering 200 50)
      sample_heap = Ok (healthz_middleware, h', t).
Proof.
  exact (@ServeHTTP_keeps_receiver sample_stdlib healthz_middleware
           (http.NegroniWriter 1)
           (sample_request "/orders" context.Background) (answering 200 50)
           sample_heap DefaultBefore (@DefaultAfter sample_stdlib)
           eq_refl eq_refl).
Defined.

(** X14. A request is passed through without a clock read, a hook call or
    a record exactly when its path is an element of the excluded list: the
    comparison is on the whole string, and any other path makes the
    middleware read the clock. *)
Theorem skip_iff_excluded `{GoStdlib} (m : Middleware)
    (rw : http.ResponseWriter) (r : Request) (next : HandlerFunc) (h : Heap) :
  ∃ m' h' t,
    ServeHTTP m rw r next h = Ok (m', h', t) ∧
    (t = [EvNext rw r] ↔ URL_Path r ∈ excludeURLs m) ∧
    (EvNow (Now (clock m) h) ∈ t ↔ URL_Path r ∉ excludeURLs m).
Proof.
  destruct (decide (URL_Path r ∈ excludeURLs m)) as [Hin|Hnin].
  - eexists _, _, _. split; [by apply ServeHTTP_skip|]. split; [done|].
    split; [intros Hx; trace_inv Hx | done].
  - eexists _, _, _. split; [by apply ServeHTTP_proceed|]. split.
    + split; [discriminate|done].
    + split; [done|]. intros _. in_trace.
Qed.

(** ** Configuration followed by dispatch *)

(** X15. After [ExcludeURL] accepted a string, a request whose path is
    that string is passed through, and so is every request that was passed
    through before: registration only ever adds exclusions. *)
Theorem ExcludeURL_then_skipped `{GoStdlib} (m : Middleware) (u : string)
    (rw : http.ResponseWriter) (r : Request) (next : HandlerFunc) (h : Heap) :
  url_Parse_err u = None →
  URL_Path r = u ∨ URL_Path r ∈ excludeURLs m →
  (ExcludeURL m u).1 = None ∧
  ∃ m', ServeHTTP (ExcludeURL m u).2 rw r next h
        = Ok (m', next rw r h, [EvNext rw r]).
Proof.
  intros Hok Hpath. unfold ExcludeURL. rewrite Hok. cbn [fst snd].
  split; [reflexivity|]. eexists. apply ServeHTTP_skip. cbn.
  apply elem_of_app. destruct Hpath as [<-|Hin]; [right|by left].
  apply list_elem_of_here.
Qed.

Lemma ExcludeURL_then_skipped_witness :
  let r := sample_request "/metrics" context.Background in
  let rw := http.NegroniWriter 1 in
  ∃ m', @ServeHTTP sample_stdlib
          (@ExcludeURL sample_stdlib healthz_middleware "/metrics").2
          rw r (answering 200 50) sample_heap
        = Ok (m', answering 200 50 rw r sample_heap, [EvNext rw r]).
Proof.
  intros r rw.
  exact (proj2 (@ExcludeURL_then_skipped sample_stdlib healthz_middleware
                  "/metrics" rw r (answering 200 50) sample_heap
                  eq_refl (or_introl eq_refl))).
Defined.

(** X16. After any run of [ExcludeURL] calls the excluded list is the old
    list followed by exactly those strings that parsed, in the order of
    the calls and with repetitions kept; a rejected string leaves no
    trace, and no other setting of the middleware changes. *)
Theorem ExcludeURL_each_list `{GoStdlib} (m : Middleware) (us : list string) :
  ExcludedURLs (ExcludeURL_each m us)
    = ExcludedURLs m ++ filter (λ u, url_Parse_err u = None) us ∧
  Logger (ExcludeURL_each m us) = Logger m ∧
  Name (ExcludeURL_each m us) = Name m ∧
  Before (ExcludeURL_each m us) = Before m ∧
  After (ExcludeURL_each m us) = After m ∧
  logStarting (ExcludeURL_each m us) = logStarting m ∧
  clock (ExcludeURL_each m us) = clock m.
Proof.
  revert m. induction us as [|u us IH]; intros m.
  - cbn. by rewrite app_nil_r.
  - cbn [ExcludeURL_each foldl].
    change (foldl _ ?m0 us) with (ExcludeURL_each m0 us).
    destruct (IH (ExcludeURL m u).2) as (HE & HL & HN & HB & HA & HS & HC).
    rewrite HE, HL, HN, HB, HA, HS, HC. rewrite filter_cons.
    unfold ExcludeURL, ExcludedURLs.
    destruct (url_Parse_err u) as [err|] eqn:Hu; cbn [snd].
    + by rewrite decide_False.
    + rewrite decide_True by done. cbn. by rewrite <- app_assoc.
Qed.

(** X17. [SetLogStarting] decides the start record of the next dispatch:
    after [SetLogStarting v] a request that is not excluded gets one start
    record when [v] is true and none when it is false, whatever the flag
    was before; which requests are excluded does not change. *)
Theorem SetLogStarting_controls_start `{GoStdlib} (m : Middleware) (v : bool)
    (rw : http.ResponseWriter) (r : Request) (next : HandlerFunc) (h : Heap) :
  URL_Path r ∉ excludeURLs m →
  ExcludedURLs (SetLogStarting m v) = ExcludedURLs m ∧
  ∃ m' h' t,
    ServeHTTP (SetLogStarting m v) rw r next h = Ok (m', h', t) ∧
    count_logs started_msg t = (if v then 1 else 0)%nat ∧
    logStarting m' = v.
Proof.
  intros Hnin. split; [reflexivity|]. eexists _, _, _.
  split; [by apply (ServeHTTP_proceed (SetLogStarting m v))|].
  split.
  - cbn [logStarting SetLogStarting].
    destruct v, (recovered rw r); by vm_compute.
  - by destruct (defaulted_settings (SetLogStarting m v)) as (_ & _ & -> & _).
Qed.

Lemma SetLogStarting_controls_start_witness :
  let r := sample_request "/orders" context.Background in
  ∃ m' h' t,
    @ServeHTTP sample_stdlib (SetLogStarting healthz_middleware false)
      (http.NegroniWriter 1) r (answering 200 50) sample_heap
      = Ok (m', h', t) ∧
    count_logs started_msg t = 0%nat ∧
    logStarting m' = false.
Proof.
  intros r.
  exact (proj2 (@SetLogStarting_controls_start sample_stdlib
                  healthz_middleware false (http.NegroniWriter 1) r
                  (answering 200 50) sample_heap other_path_not_excluded)).
Defined.

(** X18. When the writer given to [ServeHTTP] is itself status-capturing,
    the After hook is called on it and on no other writer, whatever writer
    the request context holds. *)
Theorem direct_writer_preferred `{GoStdlib} (m : Middleware)
    (rw : http.ResponseWriter) (r : Request) (next : HandlerFunc) (h : Heap)
    (a : addr) :
  URL_Path r ∉ excludeURLs m →
  as_negroni rw = Some a →
  ∃ m' h' t,
    ServeHTTP m rw r next h = Ok (m', h', t) ∧
    (∃ e lat, EvAfter e a lat (Name m) ∈ t) ∧
    (∀ e res lat n, EvAfter e res lat n ∈ t → res = a) ∧
    count_logs completed_msg t = 1%nat.
Proof.
  intros Hnin Hrw. eexists _, _, _.
  split; [by apply ServeHTTP_proceed|].
  assert (Hrec : recovered rw r = Some a) by (unfold recovered; by rewrite Hrw).
  rewrite Hrec. split; [eexists _, _; destruct (logStarting m); in_trace|].
  split; [|by destruct (logStarting m)].
  intros e res lat n Hin. destruct (logStarting m); by trace_inv Hin.
Qed.

Lemma direct_writer_preferred_witness :
  let r := sample_request "/orders"
             (AddWriterToContext context.Background (http.NegroniWriter 2)) in
  ∃ m' h' t,
    @ServeHTTP sample_stdlib healthz_middleware (http.NegroniWriter 1) r
      (answering 200 50) sample_heap = Ok (m', h', t) ∧
    (∃ e lat, EvAfter e 1 lat "web" ∈ t) ∧
    (∀ e res lat n, EvAfter e res lat n ∈ t → res = 1%nat) ∧
    count_logs completed_msg t = 1%nat.
Proof.
  intros r.
  assert (Hnin : URL_Path r ∉ excludeURLs healthz_middleware)
    by (intros Hin; trace_cases Hin).
  exact (@direct_writer_preferred sample_stdlib healthz_middleware
           (http.NegroniWriter 1) r (answering 200 50) sample_heap 1
           Hnin eq_refl).
Defined.

(** X19. With the default hooks (set, or nil at dispatch) every record the
    middleware emits is on the middleware's own logger, whatever entry the
    request context held on entry. *)
Theorem default_hooks_log_on_own_logger `{GoStdlib} (m : Middleware)
    (rw : http.ResponseWriter) (r : Request) (next : HandlerFunc) (h : Heap) :
  before_of m = DefaultBefore →
  after_of m = DefaultAfter →
  ∃ m' h' t,
    ServeHTTP m rw r next h = Ok (m', h', t) ∧
    ∀ rec, rec ∈ logs_of t →
           logrus.Entry_Logger (logrus.rec_entry rec) = Logger m.
Proof.
  intros Hb Ha.
  destruct (decide (URL_Path r ∈ excludeURLs m)) as [Hin|Hnin].
  - eexists _, _, _. split; [by apply ServeHTTP_skip|].
    intros rec Hrec. trace_inv Hrec.
  - eexists _, _, _. split; [by apply ServeHTTP_proceed|].
    rewrite Ha, Extract_ToContext.
    pose proof (installed_entry_Logger m r Hb) as HL.
    intros rec Hrec.
    destruct (logStarting m), (recovered rw r); trace_inv Hrec; exact HL.
Qed.

Lemma default_hooks_log_on_own_logger_witness :
  let ctx := ToContext context.Background (logrus.NewEntry nullLogger) in
  ∃ m' h' t,
    @ServeHTTP sample_stdlib hookless_middleware (http.NegroniWriter 1)
      (sample_request "/orders" ctx) (answering 200 50) sample_heap
      = Ok (m', h', t) ∧
    ∀ rec, rec ∈ logs_of t →
           logrus.Entry_Logger (logrus.rec_entry rec) = sample_logger.
Proof.
  intros ctx.
  exact (@default_hooks_log_on_own_logger sample_stdlib hookless_middleware
           (http.NegroniWriter 1) (sample_request "/orders" ctx)
           (answering 200 50) sample_heap eq_refl eq_refl).
Defined.



(** X21. A middleware built by [NewCustomMiddleware], and so one built by
    [NewMiddleware], excludes nothing: every request gets its start record;
    dispatch hands the receiver back unchanged; its records are on a logger
    that writes to standard error with the formatter and level given, and
    the After hook is called under the name given. *)
Theorem NewCustomMiddleware_dispatch `{GoStdlib} (level : logrus.Level)
    (formatter : logrus.Formatter) (name : string)
    (rw : http.ResponseWriter) (r : Request) (next : HandlerFunc) (h : Heap) :
  ∃ h' t,
    ServeHTTP (NewCustomMiddleware level formatter name) rw r next h
      = Ok (NewCustomMiddleware level formatter name, h', t) ∧
    count_logs started_msg t = 1%nat ∧
    (∀ rec, rec ∈ logs_of t →
       logrus.Entry_Logger (logrus.rec_entry rec) =
         {| logrus.Out := logrus.Stderr; logrus.Formatter_of := formatter;
            logrus.Level_of := level |}) ∧
    (∀ e res lat n, EvAfter e res lat n ∈ t → n = name) ∧
    NewMiddleware = NewCustomMiddleware logrus.InfoLevel logrus.TextFormatter
                      "web".
Proof.
  set (m := NewCustomMiddleware level formatter name).
  assert (Hnin : URL_Path r ∉ excludeURLs m) by apply not_elem_of_nil.
  pose proof (ServeHTTP_proceed m rw r next h Hnin) as Hrun.
  cbv zeta in Hrun. change (defaulted m) with m in Hrun.
  eexists _, _. split; [exact Hrun|].
  pose proof (installed_entry_Logger m r eq_refl) as HL.
  change (after_of m) with DefaultAfter. rewrite Extract_ToContext.
  change (logStarting m) with true. split; [by destruct (recovered rw r)|].
  split.
  - intros rec Hrec. destruct (recovered rw r); trace_inv Hrec; exact HL.
  - split; [|reflexivity]. intros e res lat n Hin.
    destruct (recovered rw r); by trace_inv Hin.
Qed.
